(** * Trade performance analysis of the Solana wallet tracker

    Shallow embedding of [GeckoTerminalAPI.getOHLCV] and
    [analyzeTradePerformance] (src/unnamed/part_000, lines 77-153), and of
    the part of [TradeInputForm.handleSubmit] that builds a trade record. *)

From Stdlib Require Import QArith List String Bool Lia PeanoNat.
Import ListNotations.
Open Scope Q_scope.
#[local] Set Warnings "-register-all".

(** ** JavaScript numbers

    A JS number is a finite value, one of the two infinities, or NaN.
    Finite values are rationals: the development does not model rounding
    (no claim below depends on it) nor the sign of zero. *)

Inductive jsnum : Type :=
| JFin (q : Q)
| JPosInf
| JNegInf
| JNaN.

Definition qsign (q : Q) : comparison := Qcompare q 0.

Definition Qltb (x y : Q) : bool := negb (Qle_bool y x).

(** [a < b]; every comparison with NaN is false. *)
Definition js_lt (a b : jsnum) : bool :=
  match a, b with
  | JNaN, _ | _, JNaN => false
  | JFin x, JFin y => Qltb x y
  | JNegInf, JNegInf => false
  | JNegInf, _ => true
  | _, JNegInf => false
  | JPosInf, _ => false
  | _, JPosInf => true
  end.

(** [a == b] on numbers (strict equality). *)
Definition js_eqn (a b : jsnum) : bool :=
  match a, b with
  | JFin x, JFin y => Qeq_bool x y
  | JPosInf, JPosInf | JNegInf, JNegInf => true
  | _, _ => false
  end.

(** [a <= b]. *)
Definition js_le (a b : jsnum) : bool := js_lt a b || js_eqn a b.

Definition js_neg (a : jsnum) : jsnum :=
  match a with
  | JFin x => JFin (- x)
  | JPosInf => JNegInf
  | JNegInf => JPosInf
  | JNaN => JNaN
  end.

Definition js_add (a b : jsnum) : jsnum :=
  match a, b with
  | JNaN, _ | _, JNaN => JNaN
  | JFin x, JFin y => JFin (x + y)
  | JPosInf, JNegInf | JNegInf, JPosInf => JNaN
  | JPosInf, _ | _, JPosInf => JPosInf
  | JNegInf, _ | _, JNegInf => JNegInf
  end.

Definition js_sub (a b : jsnum) : jsnum := js_add a (js_neg b).

(** An infinity of the sign of [c] ([Lt] negative, [Gt] positive). *)
Definition inf_of (c : comparison) : jsnum :=
  match c with
  | Lt => JNegInf
  | Gt => JPosInf
  | Eq => JNaN
  end.

Definition sign_mul (c d : comparison) : comparison :=
  match c, d with
  | Eq, _ | _, Eq => Eq
  | Lt, Lt | Gt, Gt => Gt
  | _, _ => Lt
  end.

Definition js_sign (a : jsnum) : comparison :=
  match a with
  | JFin x => qsign x
  | JPosInf => Gt
  | JNegInf => Lt
  | JNaN => Eq
  end.

Definition js_mul (a b : jsnum) : jsnum :=
  match a, b with
  | JNaN, _ | _, JNaN => JNaN
  | JFin x, JFin y => JFin (x * y)
  | _, _ => inf_of (sign_mul (js_sign a) (js_sign b))
  end.

(** [a / b]. A zero is [+0] here (the model has no signed zero), so an
    infinity divided by zero keeps its sign. *)
Definition js_div (a b : jsnum) : jsnum :=
  match a, b with
  | JNaN, _ | _, JNaN => JNaN
  | JFin x, JFin y =>
      if Qeq_bool y 0 then inf_of (qsign x) else JFin (x / y)
  | JFin _, _ => JFin 0
  | _, JFin y =>
      if Qeq_bool y 0 then inf_of (js_sign a)
      else inf_of (sign_mul (js_sign a) (qsign y))
  | _, _ => JNaN
  end.

(** Truthiness of a number: [0] and [NaN] are falsy. *)
Definition js_truthy (a : jsnum) : bool :=
  match a with
  | JFin x => negb (Qeq_bool x 0)
  | JNaN => false
  | _ => true
  end.

(** Truthiness of a string: only [""] is falsy. *)
Definition str_truthy (s : string) : bool :=
  match s with EmptyString => false | _ => true end.

Definition n100 : jsnum := JFin 100.
Definition n1000 : jsnum := JFin 1000.

(** ** Candles as the provider sends them

    An element of [ohlcv_list] is a JSON array of numbers
    [[timestamp, open, high, low, close, volume]], timestamp in seconds.
    [candle[i]] beyond the end is [undefined], which every arithmetic and
    relational operator of the analyzer turns into NaN. *)

Definition raw_candle := list Q.

Definition nth_num (c : raw_candle) (i : nat) : jsnum :=
  match nth_error c i with
  | Some q => JFin q
  | None => JNaN
  end.

(** A candle that carries the five positional fields. *)
Definition well_formed (c : raw_candle) : Prop := (5 <= List.length c)%nat.

Definition c_ts (c : raw_candle) : jsnum := nth_num c 0.
Definition c_high (c : raw_candle) : jsnum := nth_num c 2.
Definition c_low (c : raw_candle) : jsnum := nth_num c 3.

(** ** Trade records and performance summaries *)

(** The fields of a trade that the analyzer reads, with [status] as
    [handleSubmit] derives it. [null] is [None]. *)
Record trade : Type := mkTrade {
  poolAddress : string;
  buyPrice : jsnum;
  buyTimestamp : string;
  sellPrice : option jsnum;
  sellTimestamp : option string;
  status : string
}.

Record summary : Type := mkSummary {
  minPrice : jsnum;
  maxPrice : jsnum;
  minTimestamp : option jsnum;
  maxTimestamp : option jsnum;
  pnlPercent : option jsnum;
  maxGainPercent : jsnum;
  maxDrawdownPercent : jsnum;
  capturedPercent : option jsnum;
  candleCount : nat
}.

(** The four [let] variables of the [forEach] loop. *)
Record scan_state : Type := mkScan {
  s_minPrice : jsnum;
  s_maxPrice : jsnum;
  s_minTimestamp : option jsnum;
  s_maxTimestamp : option jsnum
}.

Definition scan_init : scan_state := mkScan JPosInf JNegInf None None.

(** One iteration of [relevantCandles.forEach]. *)
Definition scan_step (st : scan_state) (candle : raw_candle) : scan_state :=
  let ts := c_ts candle in
  let high := c_high candle in
  let low := c_low candle in
  let st1 :=
    if js_lt low (s_minPrice st)
    then mkScan low (s_maxPrice st) (Some (js_mul ts n1000)) (s_maxTimestamp st)
    else st in
  if js_lt (s_maxPrice st1) high
  then mkScan (s_minPrice st1) high (s_minTimestamp st1) (Some (js_mul ts n1000))
  else st1.

Definition scan (candles : list raw_candle) : scan_state :=
  fold_left scan_step candles scan_init.

(** [(value - buyPrice) / buyPrice * 100] *)
Definition percent_of (value buy : jsnum) : jsnum :=
  js_mul (js_div (js_sub value buy) buy) n100.

Section Analyzer.

(** [new Date(s).getTime()]: parsing a [datetime-local] string depends on
    the time zone of the browser, so it is a parameter. *)
Variable date_getTime : string -> jsnum.

(** [buyTime] *)
Definition buy_time (t : trade) : jsnum := date_getTime (buyTimestamp t).

(** [sellTime = sellTimestamp ? new Date(sellTimestamp).getTime() : Date.now()] *)
Definition sell_time (t : trade) (now : jsnum) : jsnum :=
  match sellTimestamp t with
  | Some s => if str_truthy s then date_getTime s else now
  | None => now
  end.

(** The filter predicate: [candleTime >= buyTime && candleTime <= sellTime]. *)
Definition in_window (buyTime sellTime : jsnum) (candle : raw_candle) : bool :=
  let candleTime := js_mul (c_ts candle) n1000 in
  js_le buyTime candleTime && js_le candleTime sellTime.

Definition relevant_candles (t : trade) (now : jsnum)
    (ohlcvData : list raw_candle) : list raw_candle :=
  filter (in_window (buy_time t) (sell_time t now)) ohlcvData.

(** The derived metrics (lines 134-152) over the filtered candles. *)
Definition summarize (t : trade) (relevantCandles : list raw_candle) : summary :=
  let st := scan relevantCandles in
  let buy := buyPrice t in
  let pnl :=
    match sellPrice t with
    | Some p => if js_truthy p then Some (percent_of p buy) else None
    | None => None
    end in
  let maxGain := percent_of (s_maxPrice st) buy in
  let maxDrawdown := percent_of (s_minPrice st) buy in
  let captured :=
    match pnl with
    | Some p =>
        if js_lt (JFin 0) maxGain then Some (js_mul (js_div p maxGain) n100)
        else None
    | None => None
    end in
  mkSummary (s_minPrice st) (s_maxPrice st) (s_minTimestamp st)
    (s_maxTimestamp st) pnl maxGain maxDrawdown captured
    (List.length relevantCandles).

(** [analyzeTradePerformance] after the fetch: the [analysis] field of the
    returned object, for the candle list [ohlcvData] and the clock value
    [now]. *)
Definition analyze_series (t : trade) (now : jsnum)
    (ohlcvData : list raw_candle) : option summary :=
  if Nat.eqb (List.length ohlcvData) 0 then None
  else
    let relevantCandles := relevant_candles t now ohlcvData in
    if Nat.eqb (List.length relevantCandles) 0 then None
    else Some (summarize t relevantCandles).

End Analyzer.

(** ** Building a trade: [TradeInputForm.handleSubmit] (lines 244-266) *)

(** The form fields, all strings as the inputs hold them. *)
Record form_data : Type := mkForm {
  f_pairAddress : string;
  f_buyPrice : string;
  f_buyTimestamp : string;
  f_sellPrice : string;
  f_sellTimestamp : string
}.

Section Form.

Variable parseFloat : string -> jsnum.

Definition handleSubmit_trade (f : form_data) : trade :=
  mkTrade (f_pairAddress f)
    (parseFloat (f_buyPrice f))
    (f_buyTimestamp f)
    (if str_truthy (f_sellPrice f) then Some (parseFloat (f_sellPrice f)) else None)
    (if str_truthy (f_sellTimestamp f) then Some (f_sellTimestamp f) else None)
    (if str_truthy (f_sellPrice f) then "closed"%string else "open"%string).

End Form.

(** ** JSON values and the price series client *)

Inductive json : Type :=
| JNull
| JBool (b : bool)
| JNumber (q : Q)
| JString (s : string)
| JArray (elems : list json)
| JObject (fields : list (string * json)).

(** A property read yields a JSON value or [undefined]. *)
Inductive jsval : Type :=
| Undefined
| Val (v : json).

(** [JSON.parse] keeps the last of duplicated keys. *)
Definition obj_get (fields : list (string * json)) (k : string) : jsval :=
  match find (fun kv => String.eqb (fst kv) k) (rev fields) with
  | Some (_, v) => Val v
  | None => Undefined
  end.

(** [v.k] on a value that is not [null]. The keys read here ([data],
    [attributes], [ohlcv_list]) are no built-in property of arrays,
    strings, numbers or booleans. *)
Definition prop (v : json) (k : string) : jsval :=
  match v with
  | JObject fields => obj_get fields k
  | _ => Undefined
  end.

(** [v?.k] *)
Definition opt_prop (v : jsval) (k : string) : jsval :=
  match v with
  | Undefined | Val JNull => Undefined
  | Val j => prop j k
  end.

Definition json_truthy (v : jsval) : bool :=
  match v with
  | Undefined | Val JNull => false
  | Val (JBool b) => b
  | Val (JNumber q) => negb (Qeq_bool q 0)
  | Val (JString s) => str_truthy s
  | Val (JArray _) | Val (JObject _) => true
  end.

(** [v || []] *)
Definition or_empty (v : jsval) : json :=
  match v with
  | Val j => if json_truthy v then j else JArray []
  | Undefined => JArray []
  end.

(** The parameters that make up the OHLCV URL of line 81. *)
Record ohlcv_request : Type := mkRequest {
  r_network : string;
  r_poolAddress : string;
  r_timeframe : string;
  r_aggregate : Z;
  r_limit : Z
}.

(** A response body as [response.json()] sees it. *)
Inductive body : Type :=
| BodyMalformed
| BodyJson (j : json).

(** The outcome of [fetch]: rejected (network failure) or a response with
    its HTTP status and body. *)
Inductive fetch_result : Type :=
| FetchRejected
| FetchResponse (httpStatus : Z) (b : body).

(** ** Effects: the environment and a state and exception monad *)

(** What the analyzer can observe or change outside its arguments: the
    clock ([Date.now()]), the network, and the console. *)
Record world : Type := mkWorld {
  w_now : jsnum;
  w_fetch : ohlcv_request -> fetch_result;
  w_log : list string
}.

Inductive exn : Type :=
| NetworkError
| SyntaxError
| TypeError
(** A candle list that is not an array of arrays of numbers: outside the
    provider's documented layout, and not followed through JS coercions
    by this development. *)
| ShapeOutsideModel.

Definition M (A : Type) : Type := world -> (exn + A) * world.

Definition ret {A} (a : A) : M A := fun w => (inr a, w).

Definition bind {A B} (m : M A) (f : A -> M B) : M B :=
  fun w =>
    match m w with
    | (inr a, w') => f a w'
    | (inl e, w') => (inl e, w')
    end.

Definition throw {A} (e : exn) : M A := fun w => (inl e, w).

(** [try { m } catch (e) { h(e) }] *)
Definition try_catch {A} (m : M A) (h : exn -> M A) : M A :=
  fun w =>
    match m w with
    | (inl e, w') => h e w'
    | r => r
    end.

Notation "x <- m ;; k" := (bind m (fun x => k))
  (at level 61, m at next level, right associativity).

Definition fetch (req : ohlcv_request) : M (Z * body) :=
  fun w =>
    match w_fetch w req with
    | FetchRejected => (inl NetworkError, w)
    | FetchResponse st b => (inr (st, b), w)
    end.

Definition response_json (b : body) : M json :=
  match b with
  | BodyMalformed => throw SyntaxError
  | BodyJson j => ret j
  end.

(** [data.k]: reading a property of [null] throws. *)
Definition member (v : json) (k : string) : M jsval :=
  match v with
  | JNull => throw TypeError
  | _ => ret (prop v k)
  end.

Definition console_error (msg : string) : M unit :=
  fun w => (inr tt, mkWorld (w_now w) (w_fetch w) (w_log w ++ [msg])).

Definition date_now : M jsnum := fun w => (inr (w_now w), w).

(** [GeckoTerminalAPI.getOHLCV] (lines 78-89). *)
Definition getOHLCV (network poolAddress timeframe : string)
    (aggregate limit : Z) : M json :=
  try_catch
    (response <- fetch (mkRequest network poolAddress timeframe aggregate limit) ;;
     data <- response_json (snd response) ;;
     d <- member data "data" ;;
     ret (or_empty (opt_prop (opt_prop d "attributes") "ohlcv_list")))
    (fun _ =>
       _ <- console_error "GeckoTerminal OHLCV error:" ;;
       ret (JArray [])).

(** An array of arrays of numbers, read as a candle list. *)
Fixpoint as_numbers (l : list json) : option (list Q) :=
  match l with
  | [] => Some []
  | JNumber q :: rest =>
      match as_numbers rest with Some qs => Some (q :: qs) | None => None end
  | _ :: _ => None
  end.

Fixpoint as_candles (l : list json) : option (list raw_candle) :=
  match l with
  | [] => Some []
  | JArray xs :: rest =>
      match as_numbers xs, as_candles rest with
      | Some c, Some cs => Some (c :: cs)
      | _, _ => None
      end
  | _ :: _ => None
  end.

Definition as_series (j : json) : option (list raw_candle) :=
  match j with
  | JArray elems => as_candles elems
  | _ => None
  end.

Section Pipeline.

Variable date_getTime : string -> jsnum.

(** [analyzeTradePerformance] (lines 96-153): the trade, returned with its
    [analysis] field. *)
Definition analyzeTradePerformance (t : trade) : M (trade * option summary) :=
  ohlcvData <- getOHLCV "solana" (poolAddress t) "hour" 1 1000 ;;
  match as_series ohlcvData with
  | Some series =>
      now <- date_now ;;
      ret (t, analyze_series date_getTime t now series)
  | None => throw ShapeOutsideModel
  end.

End Pipeline.

(** ** Concrete runs *)

Module Runs.

(** Timestamps parse to milliseconds; ["t<n>"] stands for second [n]. *)
Definition getTime (s : string) : jsnum :=
  match s with
  | "t100"%string => JFin 100000
  | "t200"%string => JFin 200000
  | "t300"%string => JFin 300000
  | "t400"%string => JFin 400000
  | _ => JNaN
  end.

Definition closed_trade : trade :=
  mkTrade "pool" (JFin 2) "t100" (Some (JFin 3)) (Some "t300"%string) "closed".

(** The spec's example: lows [5, 3, 8], highs [6, 9, 10]. *)
Definition series3 : list raw_candle :=
  [[100; 5; 6; 5; 5]; [200; 4; 9; 3; 4]; [300; 8; 10; 8; 9]].

(** The window of [series3] for [closed_trade], and the summary the
    analyzer returns for it. *)
Definition summary3 : summary :=
  mkSummary (JFin 3) (JFin 10) (Some (JFin 200000)) (Some (JFin 300000))
    (Some (JFin (100 # 2))) (JFin (800 # 2)) (JFin (100 # 2))
    (Some (JFin (20000 # 1600))) 3.

(** The same trade, sold at a price of [0]. *)
Definition zero_sell_trade : trade :=
  mkTrade "pool" (JFin 2) "t100" (Some (JFin 0)) (Some "t300"%string) "closed".

Definition summary3_zero_sell : summary :=
  mkSummary (JFin 3) (JFin 10) (Some (JFin 200000)) (Some (JFin 300000))
    None (JFin (800 # 2)) (JFin (100 # 2)) None 3.

(** [parseFloat] on the strings used below. *)
Definition parseFloat (s : string) : jsnum :=
  match s with
  | "0"%string => JFin 0
  | "2"%string => JFin 2
  | "3"%string => JFin 3
  | _ => JNaN
  end.

(** A buy with a sell time but no sell price. *)
Definition form_sell_time_only : form_data :=
  mkForm "pool" "2" "t100" "" "t300".

(** A provider body carrying one candle. *)
Definition body_one_candle : json :=
  JObject [("data"%string,
            JObject [("attributes"%string,
                      JObject [("ohlcv_list"%string,
                                JArray [JArray [JNumber 100; JNumber 2; JNumber 3;
                                                JNumber 1; JNumber 2; JNumber 50]])])])].

Definition world_with (r : fetch_result) : world :=
  mkWorld (JFin 400000) (fun _ => r) [].

Definition solana_pool : ohlcv_request := mkRequest "solana" "pool" "hour" 1 1000.

(** An open trade bought after the only candle of [body_one_candle]. *)
Definition late_trade : trade :=
  mkTrade "pool" (JFin 2) "t200" None None "open".

(** The form of [zero_sell_trade]: sold at ["0"]. *)
Definition form_zero_sell : form_data :=
  mkForm "pool" "2" "t100" "0" "t300".


End Runs.

(** Discharges [Forall well_formed] on a concrete candle list. *)
Ltac solve_well_formed :=
  repeat (apply Forall_cons; [unfold well_formed; simpl; lia|]);
  apply Forall_nil.

(** ** The trade journal: [SolanaWalletTracker] (lines 626-650)

    The handlers read nothing of a trade but its [id]. *)

Section Journal.

Variable T : Type.
Variable id_of : T -> Z.

(** [setTrades(prev => [trade, ...prev])] *)
Definition handleAddTrade (t : T) (prev : list T) : list T := t :: prev.

(** [prev.map(t => t.id === updatedTrade.id ? updatedTrade : t)] *)
Definition handleUpdateTrade (updated : T) (prev : list T) : list T :=
  map (fun t => if Z.eqb (id_of t) (id_of updated) then updated else t) prev.

(** [if (window.confirm(...)) setTrades(prev => prev.filter(t => t.id !== tradeId))];
    [confirmed] is the user's answer. *)
Definition handleDeleteTrade (confirmed : bool) (tradeId : Z) (prev : list T) : list T :=
  if confirmed then filter (fun t => negb (Z.eqb (id_of t) tradeId)) prev else prev.

End Journal.

Arguments handleAddTrade {T} t prev.
Arguments handleUpdateTrade {T} id_of updated prev.
Arguments handleDeleteTrade {T} id_of confirmed tradeId prev.

(** A journal entry: the trade, its [id] ([Date.now()] at submission), its
    [buyAmount], and the [analysis] attached by [handleAnalyze] ([None] when
    absent or [null]). *)
Record entry : Type := mkEntry {
  e_id : Z;
  e_trade : trade;
  e_buyAmount : jsnum;
  e_analysis : option summary
}.

(** [handleSubmit] (lines 248-266) with its [id] and [buyAmount] fields. *)
Definition handleSubmit_entry (pf : string -> jsnum) (now_ms : Z)
    (buyAmountText : string) (f : form_data) : entry :=
  mkEntry now_ms (handleSubmit_trade pf f) (pf buyAmountText) None.

(** [TradeCard.handleAnalyze] followed by [onUpdate] (lines 407-412,
    [onUpdate] being [handleUpdateTrade]): the analysed object is the entry
    with its trade fields and its [analysis] replaced. *)
Definition handleAnalyze (gt : string -> jsnum) (e : entry) (journal : list entry)
    : M (list entry) :=
  r <- analyzeTradePerformance gt (e_trade e) ;;
  ret (handleUpdateTrade e_id
         (mkEntry (e_id e) (fst r) (e_buyAmount e) (snd r)) journal).

(** ** [StatsDashboard] (lines 544-557) *)

(** [null] read as a number ([null > x], [null - x]) is [0]. *)
Definition null_to_num (v : option jsnum) : jsnum :=
  match v with Some x => x | None => JFin 0 end.

Record stats : Type := mkStats {
  totalTrades : nat;
  openCount : nat;
  closedCount : nat;
  winRate : jsnum;
  avgPnl : jsnum;
  totalInvested : jsnum
}.

Definition is_status (st : string) (e : entry) : bool :=
  String.eqb (status (e_trade e)) st.

Definition StatsDashboard (trades : list entry) : stats :=
  let closedTrades := filter (is_status "closed") trades in
  let openTrades := filter (is_status "open") trades in
  let winners :=
    List.length (filter (fun e => js_lt (buyPrice (e_trade e))
                                        (null_to_num (sellPrice (e_trade e))))
                        closedTrades) in
  let n := List.length closedTrades in
  let winRate :=
    if Nat.ltb 0 n
    then js_mul (js_div (JFin (inject_Z (Z.of_nat winners)))
                        (JFin (inject_Z (Z.of_nat n)))) n100
    else JFin 0 in
  let totalInvested :=
    fold_left (fun sum e =>
                 js_add sum (if js_truthy (e_buyAmount e) then e_buyAmount e else JFin 0))
              trades (JFin 0) in
  let avgPnl :=
    if Nat.ltb 0 n
    then js_div
           (fold_left (fun sum e =>
                         js_add sum (percent_of (null_to_num (sellPrice (e_trade e)))
                                                (buyPrice (e_trade e))))
                      closedTrades (JFin 0))
           (JFin (inject_Z (Z.of_nat n)))
    else JFin 0 in
  mkStats (List.length trades) (List.length openTrades) n winRate avgPnl totalInvested.

(** ** The P&L line of [TradeCard] (lines 415-419) *)

Definition card_pnl (t : trade) (currentPrice : option jsnum) : option jsnum :=
  let unrealized :=
    match currentPrice with
    | Some c => if js_truthy c then Some (percent_of c (buyPrice t)) else None
    | None => None
    end in
  match sellPrice t with
  | Some p => if js_truthy p then Some (percent_of p (buyPrice t)) else unrealized
  | None => unrealized
  end.

(** ** Token search: [DexScreenerAPI.searchToken] (lines 50-61) and
    [TokenSearch.handleSearch] (lines 164-171) *)

(** What the search can observe or change: the search endpoint (keyed by
    the query), the requests sent, the console, and the component state
    [results] and [loading]. *)
Record search_world : Type := mkSearchWorld {
  sw_fetch : string -> fetch_result;
  sw_requests : list string;
  sw_log : list string;
  sw_results : list json;
  sw_loading : bool
}.

Definition SM (A : Type) : Type := search_world -> (exn + A) * search_world.

Definition sret {A} (a : A) : SM A := fun w => (inr a, w).

Definition sbind {A B} (m : SM A) (f : A -> SM B) : SM B :=
  fun w =>
    match m w with
    | (inr a, w') => f a w'
    | (inl e, w') => (inl e, w')
    end.

Definition sthrow {A} (e : exn) : SM A := fun w => (inl e, w).

Definition stry {A} (m : SM A) (h : exn -> SM A) : SM A :=
  fun w =>
    match m w with
    | (inl e, w') => h e w'
    | r => r
    end.

Definition search_fetch (query : string) : SM (Z * body) :=
  fun w =>
    let w' := mkSearchWorld (sw_fetch w) (sw_requests w ++ [query]) (sw_log w)
                (sw_results w) (sw_loading w) in
    match sw_fetch w query with
    | FetchRejected => (inl NetworkError, w')
    | FetchResponse st b => (inr (st, b), w')
    end.

Definition search_json (b : body) : SM json :=
  match b with
  | BodyMalformed => sthrow SyntaxError
  | BodyJson j => sret j
  end.

(** [v.k]: reading a property of [null] throws. *)
Definition smember (v : json) (k : string) : SM jsval :=
  match v with
  | JNull => sthrow TypeError
  | _ => sret (prop v k)
  end.

Definition search_log (msg : string) : SM unit :=
  fun w => (inr tt, mkSearchWorld (sw_fetch w) (sw_requests w) (sw_log w ++ [msg])
                      (sw_results w) (sw_loading w)).

Definition searchToken (query : string) : SM json :=
  stry
    (sbind (search_fetch query) (fun response =>
     sbind (search_json (snd response)) (fun data =>
     sbind (smember data "pairs") (fun v =>
     sret (or_empty v)))))
    (fun _ => sbind (search_log "DexScreener search error:") (fun _ => sret (JArray []))).

(** [p.chainId === 'solana'] *)
Definition is_solana (v : jsval) : bool :=
  match v with
  | Val (JString s) => String.eqb s "solana"
  | _ => false
  end.

(** [pairs.filter(p => p.chainId === 'solana')]; [filter] exists on arrays
    only. *)
Fixpoint filter_solana (l : list json) : SM (list json) :=
  match l with
  | [] => sret []
  | p :: rest =>
      sbind (smember p "chainId") (fun v =>
      sbind (filter_solana rest) (fun kept =>
      sret (if is_solana v then p :: kept else kept)))
  end.

Definition solana_pairs (pairs : json) : SM (list json) :=
  match pairs with
  | JArray l => filter_solana l
  | _ => sthrow TypeError
  end.

Definition set_results (r : list json) : SM unit :=
  fun w => (inr tt, mkSearchWorld (sw_fetch w) (sw_requests w) (sw_log w) r (sw_loading w)).

Definition set_loading (b : bool) : SM unit :=
  fun w => (inr tt, mkSearchWorld (sw_fetch w) (sw_requests w) (sw_log w) (sw_results w) b).

(** [!query.trim()]: the query, held as its UTF-8 bytes, consists only of
    what [String.prototype.trim] removes: the white space (U+0009, U+000B,
    U+000C, U+0020, U+00A0, U+1680, U+2000 to U+200A, U+202F, U+205F,
    U+3000, U+FEFF) and the line terminators (U+000A, U+000D, U+2028,
    U+2029). *)
Definition is_js_space (a : Ascii.ascii) : bool :=
  match Ascii.nat_of_ascii a with
  | 9 | 10 | 11 | 12 | 13 | 32 => true
  | _ => false
  end%nat.

(** The two-byte U+00A0 ([C2 A0]). *)
Definition is_space2 (a b : nat) : bool :=
  Nat.eqb a 194 && Nat.eqb b 160.

(** The three-byte spaces: U+1680 ([E1 9A 80]), U+2000 to U+200A
    ([E2 80 80] to [E2 80 8A]), U+2028, U+2029, U+202F ([E2 80 A8],
    [E2 80 A9], [E2 80 AF]), U+205F ([E2 81 9F]), U+3000 ([E3 80 80]) and
    U+FEFF ([EF BB BF]). *)
Definition is_space3 (a b c : nat) : bool :=
  (Nat.eqb a 225 && Nat.eqb b 154 && Nat.eqb c 128) ||
  (Nat.eqb a 226 && Nat.eqb b 128 &&
     ((Nat.leb 128 c && Nat.leb c 138) || Nat.eqb c 168 || Nat.eqb c 169 ||
      Nat.eqb c 175)) ||
  (Nat.eqb a 226 && Nat.eqb b 129 && Nat.eqb c 159) ||
  (Nat.eqb a 227 && Nat.eqb b 128 && Nat.eqb c 128) ||
  (Nat.eqb a 239 && Nat.eqb b 187 && Nat.eqb c 191).

Fixpoint ws_only (l : list Ascii.ascii) : bool :=
  match l with
  | [] => true
  | a :: r =>
      if is_js_space a then ws_only r
      else
        match r with
        | [] => false
        | b :: r1 =>
            if is_space2 (Ascii.nat_of_ascii a) (Ascii.nat_of_ascii b) then ws_only r1
            else
              match r1 with
              | [] => false
              | c :: r2 =>
                  if is_space3 (Ascii.nat_of_ascii a) (Ascii.nat_of_ascii b)
                       (Ascii.nat_of_ascii c)
                  then ws_only r2 else false
              end
        end
  end.

Definition blank (query : string) : bool :=
  ws_only (list_ascii_of_string query).

Definition handleSearch (query : string) : SM unit :=
  if blank query then sret tt
  else
    sbind (set_loading true) (fun _ =>
    sbind (searchToken query) (fun pairs =>
    sbind (solana_pairs pairs) (fun solanaPairs =>
    sbind (set_results (firstn 10 solanaPairs)) (fun _ =>
    set_loading false)))).

(** ** Running extrema

    Both halves of [scan_step] follow one pattern: keep the current best
    value of a field and the timestamp where it was seen, and replace them
    when a candle's field is strictly better. *)

Section RunningBestDefs.

Variable sel : raw_candle -> jsnum.
Variable upd : jsnum -> jsnum -> bool.
Variable R : Q -> Q -> Prop.

Definition best_step (acc : jsnum * option jsnum) (candle : raw_candle)
    : jsnum * option jsnum :=
  if upd (sel candle) (fst acc)
  then (sel candle, Some (js_mul (c_ts candle) n1000))
  else acc.

(** [acc] holds the field of candle [i] of [W] and its timestamp; no candle
    of [W] is strictly better and every earlier one is strictly worse. *)
Definition is_best (W : list raw_candle) (acc : jsnum * option jsnum) : Prop :=
  exists i c q,
    nth_error W i = Some c /\ sel c = JFin q /\
    fst acc = JFin q /\ snd acc = Some (js_mul (c_ts c) n1000) /\
    (forall c' q', In c' W -> sel c' = JFin q' -> ~ R q' q) /\
    (forall j c' q', (j < i)%nat -> nth_error W j = Some c' ->
                     sel c' = JFin q' -> R q q').

End RunningBestDefs.

(** The two halves of [scan_step]. *)
Definition min_step := best_step c_low (fun x cur => js_lt x cur).
Definition max_step := best_step c_high (fun x cur => js_lt cur x).

Definition solana_request (t : trade) : ohlcv_request :=
  mkRequest "solana" (poolAddress t) "hour" 1 1000.

(** The value [getOHLCV] reads: [data.data?.attributes?.ohlcv_list]. *)
Definition list_field (b : json) : jsval :=
  opt_prop (opt_prop (prop b "data") "attributes") "ohlcv_list".

(** A candle in the canonical shape: an object with the named fields. *)
Definition canonical_candle (j : json) : Prop :=
  exists fields, j = JObject fields /\
    Forall (fun k => obj_get fields k <> Undefined)
      ["timestamp"; "open"; "high"; "low"; "close"]%string.

Module ExtraRuns.

(** [closed_trade] in the journal, with an earlier analysis attached. *)
Definition analyzed_entry : entry :=
  mkEntry 1 Runs.closed_trade (JFin 5) (Some Runs.summary3).

(** A closed trade whose sell price and buy amount did not parse. *)
Definition nan_sell_entry : entry :=
  mkEntry 2 (mkTrade "pool" (JFin 2) "t100" (Some JNaN) (Some "t300"%string) "closed")
    JNaN None.

Definition pair_on (chain : string) : json :=
  JObject [("chainId"%string, JString chain)].

(** A search response with one Solana pair and one Ethereum pair. *)
Definition body_two_pairs : json :=
  JObject [("pairs"%string, JArray [pair_on "solana"; pair_on "ethereum"])].

(** A search response whose pairs contain [null]. *)
Definition body_null_pair : json :=
  JObject [("pairs"%string, JArray [pair_on "solana"; JNull])].

(** The search component with one earlier result, not loading. *)
Definition search_world_with (r : fetch_result) : search_world :=
  mkSearchWorld (fun _ => r) [] [] [pair_on "ethereum"] false.

End ExtraRuns.

(** * Properties *)

(** ** Comparisons on finite numbers *)

Lemma Qltb_iff (a b : Q) : Qltb a b = true <-> a < b.
Proof.
  unfold Qltb. rewrite negb_true_iff. split; intro H.
  - apply Qnot_le_lt. intro Hle. apply Qle_bool_iff in Hle. congruence.
  - destruct (Qle_bool b a) eqn:E; [|reflexivity].
    apply Qle_bool_iff in E. exfalso. apply (Qlt_not_le a b); assumption.
Qed.

Lemma js_lt_fin (a b : Q) : js_lt (JFin a) (JFin b) = true <-> a < b.
Proof. apply Qltb_iff. Qed.

Lemma js_le_fin (a b : Q) : js_le (JFin a) (JFin b) = true <-> a <= b.
Proof.
  unfold js_le. simpl. rewrite orb_true_iff, Qltb_iff, Qeq_bool_iff.
  split.
  - intros [H|H]; [apply Qlt_le_weak; assumption | rewrite H; apply Qle_refl].
  - intro H. destruct (Qle_lt_or_eq a b H); [left|right]; assumption.
Qed.

Lemma well_formed_field (c : raw_candle) (i : nat) :
  well_formed c -> (i < 5)%nat -> exists q, nth_num c i = JFin q.
Proof.
  unfold well_formed, nth_num. intros Hwf Hi.
  destruct (nth_error c i) as [q|] eqn:E; [eauto|].
  apply nth_error_None in E. lia.
Qed.

(** ** The running extremum of the [forEach] loop *)

Section RunningBest.

Variable sel : raw_candle -> jsnum.
Variable upd : jsnum -> jsnum -> bool.
Variable R : Q -> Q -> Prop.
Variable sentinel : jsnum.

Hypothesis upd_fin : forall a b, upd (JFin a) (JFin b) = true <-> R a b.
Hypothesis upd_sentinel : forall a, upd (JFin a) sentinel = true.
Hypothesis R_irrefl : forall a, ~ R a a.
Hypothesis R_trans : forall a b c, R a b -> R b c -> R a c.
Hypothesis R_split : forall x v y, R x v -> ~ R y v -> R x y.



Lemma best_fold (W : list raw_candle) :
  W <> [] -> Forall (fun c => exists q, sel c = JFin q) W ->
  is_best sel R W (fold_left (best_step sel upd) W (sentinel, None)).
Proof.
  induction W as [|x W' IH] using rev_ind; [congruence|].
  intros _ Hfin. apply Forall_app in Hfin as [HW' Hx].
  inversion Hx as [|? ? [qx Hqx] _]; subst.
  rewrite fold_left_app. simpl.
  destruct W' as [|y W''] eqn:EW.
  - simpl. unfold best_step. simpl. rewrite Hqx, upd_sentinel.
    exists 0%nat, x, qx. simpl. repeat split; auto.
    + intros c' q' [<-|[]] Hq'. rewrite Hqx in Hq'. injection Hq' as <-.
      apply R_irrefl.
    + intros j c' q' Hj. lia.
  - rewrite <- EW in *. specialize (IH ltac:(subst; discriminate) HW').
    destruct IH as (i & c & q & Hi & Hc & Hfst & Hsnd & Hnone & Hbefore).
    unfold best_step at 1. rewrite Hfst, Hqx.
    destruct (upd (JFin qx) (JFin q)) eqn:Eu.
    + apply upd_fin in Eu.
      exists (List.length W'), x, qx. repeat split; auto.
      * rewrite nth_error_app2 by lia. replace (List.length W' - List.length W')%nat with 0%nat by lia. reflexivity.
      * intros c' q' Hin Hq'. apply in_app_or in Hin as [Hin|[<-|[]]].
        -- intro HR. apply (Hnone c' q' Hin Hq'). eauto.
        -- rewrite Hqx in Hq'. injection Hq' as <-. apply R_irrefl.
      * intros j c' q' Hj Hnth Hq'.
        rewrite nth_error_app1 in Hnth by lia.
        apply R_split with q; [assumption|].
        apply (Hnone c' q'); [eapply nth_error_In; eassumption | assumption].
    + assert (Hlen : (i < List.length W')%nat).
      { apply nth_error_Some. congruence. }
      exists i, c, q. repeat split; auto.
      * rewrite nth_error_app1 by lia. assumption.
      * intros c' q' Hin Hq'. apply in_app_or in Hin as [Hin|[<-|[]]].
        -- apply (Hnone c' q' Hin Hq').
        -- rewrite Hqx in Hq'. injection Hq' as <-.
           intro HR. apply upd_fin in HR. congruence.
      * intros j c' q' Hj Hnth Hq'.
        rewrite nth_error_app1 in Hnth by lia. eauto.
Qed.

End RunningBest.


Lemma scan_min_proj (W : list raw_candle) (st : scan_state) :
  (s_minPrice (fold_left scan_step W st), s_minTimestamp (fold_left scan_step W st))
  = fold_left min_step W (s_minPrice st, s_minTimestamp st).
Proof.
  revert st. induction W as [|c W IH]; intro st; simpl; [reflexivity|].
  rewrite IH. f_equal. unfold scan_step, min_step, best_step. simpl.
  destruct (js_lt (c_low c) (s_minPrice st)); simpl;
    destruct (js_lt (s_maxPrice st) (c_high c)); reflexivity.
Qed.

Lemma scan_max_proj (W : list raw_candle) (st : scan_state) :
  (s_maxPrice (fold_left scan_step W st), s_maxTimestamp (fold_left scan_step W st))
  = fold_left max_step W (s_maxPrice st, s_maxTimestamp st).
Proof.
  revert st. induction W as [|c W IH]; intro st; simpl; [reflexivity|].
  rewrite IH. f_equal. unfold scan_step, max_step, best_step. simpl.
  destruct (js_lt (c_low c) (s_minPrice st)); simpl;
    destruct (js_lt (s_maxPrice st) (c_high c)); reflexivity.
Qed.

Lemma scan_min_best (W : list raw_candle) :
  W <> [] -> Forall well_formed W ->
  is_best c_low Qlt W (s_minPrice (scan W), s_minTimestamp (scan W)).
Proof.
  intros Hne Hwf. unfold scan. rewrite scan_min_proj. simpl.
  apply best_fold; [| | | | | exact Hne |].
  - apply js_lt_fin.
  - intros a. reflexivity.
  - intros a. apply Qlt_irrefl.
  - intros a b c. apply Qlt_trans.
  - intros x v y Hxv Hyv. apply Qnot_lt_le in Hyv. eapply Qlt_le_trans; eassumption.
  - eapply Forall_impl; [|exact Hwf]. intros c Hc.
    apply (well_formed_field c 3); [assumption | lia].
Qed.

Lemma scan_max_best (W : list raw_candle) :
  W <> [] -> Forall well_formed W ->
  is_best c_high (fun a b => b < a) W (s_maxPrice (scan W), s_maxTimestamp (scan W)).
Proof.
  intros Hne Hwf. unfold scan. rewrite scan_max_proj. simpl.
  apply best_fold; [| | | | | exact Hne |].
  - intros a b. apply js_lt_fin.
  - intros a. reflexivity.
  - intros a. apply Qlt_irrefl.
  - intros a b c Hab Hbc. eapply Qlt_trans; eassumption.
  - intros x v y Hxv Hyv. apply Qnot_lt_le in Hyv. eapply Qle_lt_trans; eassumption.
  - eapply Forall_impl; [|exact Hwf]. intros c Hc.
    apply (well_formed_field c 2); [assumption | lia].
Qed.

Lemma analyze_series_some (gt : string -> jsnum) (t : trade) (now : jsnum)
    (data : list raw_candle) (s : summary) :
  analyze_series gt t now data = Some s ->
  relevant_candles gt t now data <> [] /\
  s = summarize t (relevant_candles gt t now data).
Proof.
  unfold analyze_series.
  destruct (Nat.eqb (List.length data) 0); [discriminate|].
  destruct (Nat.eqb (List.length (relevant_candles gt t now data)) 0) eqn:E;
    [discriminate|].
  intro H. injection H as <-. split; [|reflexivity].
  intro Hn. rewrite Hn in E. discriminate.
Qed.

Lemma relevant_well_formed (gt : string -> jsnum) (t : trade) (now : jsnum)
    (data : list raw_candle) :
  Forall well_formed data -> Forall well_formed (relevant_candles gt t now data).
Proof.
  rewrite !Forall_forall. intros H c Hc.
  unfold relevant_candles in Hc. apply filter_In in Hc as [Hc _]. auto.
Qed.

(** ** Extremum scan *)

(** C1: over a non-empty filtered window of candles in the provider's
    layout, [minPrice] is the least [low] and [maxPrice] the greatest
    [high], each with the millisecond timestamp of the first candle of the
    window, in iteration order, that has it. *)
Theorem extremum_scan_first_occurrence (gt : string -> jsnum) (t : trade)
    (now : jsnum) (data : list raw_candle) (s : summary) :
  Forall well_formed data ->
  analyze_series gt t now data = Some s ->
  (exists i c lo,
     nth_error (relevant_candles gt t now data) i = Some c /\
     c_low c = JFin lo /\ minPrice s = JFin lo /\
     minTimestamp s = Some (js_mul (c_ts c) n1000) /\
     (forall c' lo', In c' (relevant_candles gt t now data) ->
                     c_low c' = JFin lo' -> lo <= lo') /\
     (forall j c' lo', (j < i)%nat ->
                       nth_error (relevant_candles gt t now data) j = Some c' ->
                       c_low c' = JFin lo' -> lo < lo')) /\
  (exists i c hi,
     nth_error (relevant_candles gt t now data) i = Some c /\
     c_high c = JFin hi /\ maxPrice s = JFin hi /\
     maxTimestamp s = Some (js_mul (c_ts c) n1000) /\
     (forall c' hi', In c' (relevant_candles gt t now data) ->
                     c_high c' = JFin hi' -> hi' <= hi) /\
     (forall j c' hi', (j < i)%nat ->
                       nth_error (relevant_candles gt t now data) j = Some c' ->
                       c_high c' = JFin hi' -> hi' < hi)).
Proof.
  intros Hwf Hs. apply analyze_series_some in Hs as [Hne ->].
  apply (relevant_well_formed gt t now) in Hwf.
  split.
  - destruct (scan_min_best _ Hne Hwf)
      as (i & c & q & Hi & Hc & Hfst & Hsnd & Hnone & Hbefore).
    exists i, c, q. simpl in *. repeat split; auto.
    intros c' q' Hin Hq'. apply Qnot_lt_le. eauto.
  - destruct (scan_max_best _ Hne Hwf)
      as (i & c & q & Hi & Hc & Hfst & Hsnd & Hnone & Hbefore).
    exists i, c, q. simpl in *. repeat split; auto.
    intros c' q' Hin Hq'. apply Qnot_lt_le. eauto.
Qed.

(** ** Well-formed summaries *)

(** C10: a returned summary counts at least one candle, and its extrema and
    their (non-null) timestamps are the fields and the millisecond
    timestamps of candles of the window; the sentinels [Infinity] and
    [-Infinity] do not survive. *)
Theorem returned_summary_well_formed (gt : string -> jsnum) (t : trade)
    (now : jsnum) (data : list raw_candle) (s : summary) :
  Forall well_formed data ->
  analyze_series gt t now data = Some s ->
  (1 <= candleCount s)%nat /\
  candleCount s = List.length (relevant_candles gt t now data) /\
  (exists c ts lo, In c (relevant_candles gt t now data) /\
     c_ts c = JFin ts /\ c_low c = JFin lo /\
     minTimestamp s = Some (JFin (ts * 1000)) /\ minPrice s = JFin lo) /\
  (exists c ts hi, In c (relevant_candles gt t now data) /\
     c_ts c = JFin ts /\ c_high c = JFin hi /\
     maxTimestamp s = Some (JFin (ts * 1000)) /\ maxPrice s = JFin hi).
Proof.
  intros Hwf Hs. apply analyze_series_some in Hs as [Hne ->].
  apply (relevant_well_formed gt t now) in Hwf.
  assert (Hts : forall c, In c (relevant_candles gt t now data) ->
                exists ts, c_ts c = JFin ts).
  { intros c Hc. rewrite Forall_forall in Hwf.
    apply (well_formed_field c 0); [auto | lia]. }
  repeat split.
  - simpl. destruct (relevant_candles gt t now data); [congruence|]. simpl. lia.
  - destruct (scan_min_best _ Hne Hwf)
      as (i & c & q & Hi & Hc & Hfst & Hsnd & _ & _).
    apply nth_error_In in Hi. destruct (Hts c Hi) as [ts Hts'].
    exists c, ts, q. simpl in *. rewrite Hsnd, Hts'. auto.
  - destruct (scan_max_best _ Hne Hwf)
      as (i & c & q & Hi & Hc & Hfst & Hsnd & _ & _).
    apply nth_error_In in Hi. destruct (Hts c Hi) as [ts Hts'].
    exists c, ts, q. simpl in *. rewrite Hsnd, Hts'. auto.
Qed.

(** ** Empty windows *)

Lemma filter_all_false {A} (f : A -> bool) (l : list A) :
  (forall x, In x l -> f x = false) -> filter f l = [].
Proof.
  induction l as [|x l IH]; intro H; simpl; [reflexivity|].
  rewrite H by (left; reflexivity). apply IH. intros y Hy. apply H. right. exact Hy.
Qed.

Lemma analyze_series_empty_window (gt : string -> jsnum) (t : trade)
    (now : jsnum) (data : list raw_candle) :
  (data = [] \/
   (forall c, In c data -> in_window (buy_time gt t) (sell_time gt t now) c = false)) ->
  analyze_series gt t now data = None.
Proof.
  unfold analyze_series. intros [->|H]; [reflexivity|].
  destruct (Nat.eqb (List.length data) 0); [reflexivity|].
  unfold relevant_candles. rewrite filter_all_false by exact H. reflexivity.
Qed.

(** C2: when the fetched candle list is empty, or none of its candles has
    its millisecond timestamp in [[buyTime, sellTime]], the analyzer
    completes normally and returns the trade with a [null] analysis. *)
Theorem empty_window_null_analysis (gt : string -> jsnum) (t : trade)
    (w w' : world) (j : json) (series : list raw_candle) :
  getOHLCV "solana" (poolAddress t) "hour" 1 1000 w = (inr j, w') ->
  as_series j = Some series ->
  (series = [] \/
   (forall c, In c series ->
      in_window (buy_time gt t) (sell_time gt t (w_now w')) c = false)) ->
  analyzeTradePerformance gt t w = (inr (t, None), w').
Proof.
  intros Hget Hser Hempty. unfold analyzeTradePerformance, bind.
  rewrite Hget, Hser. unfold date_now, ret.
  rewrite analyze_series_empty_window by exact Hempty. reflexivity.
Qed.

(** ** Percentages *)

(** C3 (as the code has it): [pnlPercent] is non-null exactly when
    [sellPrice] is truthy (recorded, and neither [0] nor [NaN]), and is then
    [(sellPrice - buyPrice) / buyPrice * 100]; [capturedPercent] is
    [(pnlPercent / maxGainPercent) * 100] when [pnlPercent] is non-null and
    [maxGainPercent > 0], and [null] otherwise. *)
Theorem pnl_and_captured_gating (gt : string -> jsnum) (t : trade)
    (now : jsnum) (data : list raw_candle) (s : summary) :
  analyze_series gt t now data = Some s ->
  (pnlPercent s <> None <->
   exists p, sellPrice t = Some p /\ js_truthy p = true) /\
  (forall p, sellPrice t = Some p -> js_truthy p = true ->
             pnlPercent s = Some (percent_of p (buyPrice t))) /\
  maxGainPercent s = percent_of (maxPrice s) (buyPrice t) /\
  (forall p, pnlPercent s = Some p -> js_lt (JFin 0) (maxGainPercent s) = true ->
             capturedPercent s = Some (js_mul (js_div p (maxGainPercent s)) n100)) /\
  (pnlPercent s = None \/ js_lt (JFin 0) (maxGainPercent s) = false ->
   capturedPercent s = None).
Proof.
  intro Hs. apply analyze_series_some in Hs as [_ ->].
  unfold summarize. simpl.
  destruct (sellPrice t) as [p|] eqn:Hsp.
  - destruct (js_truthy p) eqn:Htr.
    + repeat split.
      * intros _. exists p. auto.
      * discriminate.
      * intros p' Hp' _. injection Hp' as <-. reflexivity.
      * intros p' Hp' Hgt. injection Hp' as <-. rewrite Hgt. reflexivity.
      * intros [H|H]; [discriminate|]. rewrite H. reflexivity.
    + repeat split.
      * intros []. reflexivity.
      * intros (p' & Hp' & Htr'). injection Hp' as <-. congruence.
      * intros p' Hp' Htr'. injection Hp' as <-. congruence.
      * discriminate.
  - repeat split.
    + intros []. reflexivity.
    + intros (p' & Hp' & _). discriminate.
    + discriminate.
    + discriminate.
Qed.

(** C9: a trade whose [sellPrice] is [0] is analysed as one without a sell:
    [pnlPercent] and [capturedPercent] are both [null]. *)
Theorem zero_sell_price_no_pnl (gt : string -> jsnum) (t : trade)
    (now : jsnum) (data : list raw_candle) (s : summary) (q : Q) :
  q == 0 ->
  sellPrice t = Some (JFin q) ->
  analyze_series gt t now data = Some s ->
  pnlPercent s = None /\ capturedPercent s = None.
Proof.
  intros Hq Hsp Hs. apply analyze_series_some in Hs as [_ ->].
  unfold summarize. simpl. rewrite Hsp. simpl.
  apply Qeq_bool_iff in Hq. rewrite Hq. split; reflexivity.
Qed.

(** ** The window filter *)

(** C4: with finite bounds, a candle of the series is kept exactly when its
    millisecond timestamp lies in the closed interval [[buyTime, sellTime]];
    in particular a candle at either bound is kept. *)
Theorem window_filter_closed_interval (gt : string -> jsnum) (t : trade)
    (now : jsnum) (data : list raw_candle) (c : raw_candle) (b e ts : Q) :
  buy_time gt t = JFin b ->
  sell_time gt t now = JFin e ->
  c_ts c = JFin ts ->
  In c data ->
  (In c (relevant_candles gt t now data) <-> b <= ts * 1000 <= e) /\
  ((ts * 1000 == b \/ ts * 1000 == e) -> b <= e ->
   In c (relevant_candles gt t now data)).
Proof.
  intros Hb He Hts Hin.
  assert (Hiff : In c (relevant_candles gt t now data) <-> b <= ts * 1000 <= e).
  { unfold relevant_candles. rewrite filter_In. unfold in_window.
    rewrite Hb, He, Hts. change (js_mul (JFin ts) n1000) with (JFin (ts * 1000)).
    rewrite andb_true_iff, !js_le_fin. tauto. }
  split; [exact Hiff|].
  intros [Heq|Heq] Hbe; apply Hiff; rewrite Heq; split;
    solve [assumption | apply Qle_refl].
Qed.

(** ** Statelessness *)







(** ** The price series client *)


(** C6 (as the code has it): [getOHLCV] always completes normally; a
    network failure, a malformed body, or a body without a truthy
    [data.attributes.ohlcv_list] yields [[]]. The HTTP status is not read:
    a response of any status (a non-2xx one included) whose JSON body
    carries a truthy candle list yields that list. *)
Theorem ohlcv_client_never_throws (network pool tf : string) (agg lim : Z)
    (w : world) :
  (exists j, fst (getOHLCV network pool tf agg lim w) = inr j) /\
  (w_fetch w (mkRequest network pool tf agg lim) = FetchRejected ->
   fst (getOHLCV network pool tf agg lim w) = inr (JArray [])) /\
  (forall st, w_fetch w (mkRequest network pool tf agg lim) =
              FetchResponse st BodyMalformed ->
   fst (getOHLCV network pool tf agg lim w) = inr (JArray [])) /\
  (forall st b, w_fetch w (mkRequest network pool tf agg lim) =
                FetchResponse st (BodyJson b) ->
   json_truthy (list_field b) = false ->
   fst (getOHLCV network pool tf agg lim w) = inr (JArray [])) /\
  (forall st b j, w_fetch w (mkRequest network pool tf agg lim) =
                  FetchResponse st (BodyJson b) ->
   list_field b = Val j ->
   json_truthy (Val j) = true ->
   fst (getOHLCV network pool tf agg lim w) = inr j).
Proof.
  unfold getOHLCV, try_catch, bind, fetch, response_json, member,
    console_error, ret, throw, list_field.
  destruct (w_fetch w _) as [|st0 [|j]] eqn:Hf; simpl.
  - split; [eauto|]. split; [reflexivity|].
    split; [intros st H; discriminate|].
    split; intros st b; [intros H _|intros j H]; discriminate.
  - split; [eauto|]. split; [discriminate|].
    split; [reflexivity|].
    split; intros st b; [intros H _|intros j H]; discriminate.
  - split; [destruct j; simpl; eauto|]. split; [discriminate|].
    split; [intros st H; discriminate|]. split.
    + intros st b Hb Htr. injection Hb as _ <-.
      destruct j; simpl in *; try reflexivity;
        unfold or_empty; destruct (opt_prop _ _) as [|v]; try reflexivity;
        rewrite Htr; reflexivity.
    + intros st b j' Hb Hl Htr. injection Hb as _ <-.
      destruct j; simpl in Hl |- *; try discriminate.
      rewrite Hl. unfold or_empty, json_truthy.
      destruct j'; simpl in Htr |- *; try discriminate; try reflexivity;
        rewrite Htr; reflexivity.
Qed.

(** C7 (as the code has it): on a response whose body carries a truthy
    [data.attributes.ohlcv_list], [getOHLCV] returns that value unchanged,
    whatever the HTTP status: the candles stay the provider's positional
    arrays, which the analyzer reads by index. *)
Theorem ohlcv_client_returns_raw_list (network pool tf : string) (agg lim : Z)
    (w : world) (st : Z) (b j : json) :
  w_fetch w (mkRequest network pool tf agg lim) = FetchResponse st (BodyJson b) ->
  list_field b = Val j ->
  json_truthy (Val j) = true ->
  fst (getOHLCV network pool tf agg lim w) = inr j.
Proof.
  intros Hf Hl Htr.
  unfold getOHLCV, try_catch, bind, fetch, response_json, member, ret.
  rewrite Hf. unfold list_field in Hl.
  destruct b; simpl in Hl |- *; try discriminate.
  rewrite Hl. unfold or_empty. rewrite Htr. reflexivity.
Qed.

(** ** Window bounds *)

(** C8 (as the code has it): the window starts at the parsed
    [buyTimestamp] and ends at the parsed [sellTimestamp] when one is
    present and non-empty, at [Date.now()] otherwise. For a trade built by
    [handleSubmit], that choice follows the sell-time field, while [status]
    follows the sell-price field. *)
Theorem window_bounds_follow_sell_timestamp (gt : string -> jsnum)
    (pf : string -> jsnum) (t : trade) (f : form_data) (now : jsnum)
    (data : list raw_candle) :
  buy_time gt t = gt (buyTimestamp t) /\
  sell_time gt t now =
    match sellTimestamp t with
    | Some s => if str_truthy s then gt s else now
    | None => now
    end /\
  relevant_candles gt t now data =
    filter (in_window (buy_time gt t) (sell_time gt t now)) data /\
  (status (handleSubmit_trade pf f) = "closed"%string <->
   str_truthy (f_sellPrice f) = true) /\
  sell_time gt (handleSubmit_trade pf f) now =
    (if str_truthy (f_sellTimestamp f) then gt (f_sellTimestamp f) else now).
Proof.
  repeat split.
  - unfold handleSubmit_trade. simpl.
    destruct (str_truthy (f_sellPrice f)); [reflexivity | discriminate].
  - unfold handleSubmit_trade. simpl. intro H. rewrite H. reflexivity.
  - unfold sell_time, handleSubmit_trade. simpl.
    destruct (str_truthy (f_sellTimestamp f)) eqn:E; [rewrite E|]; reflexivity.
Qed.

(** * Counterexamples *)

(** C6 as stated fails: a response with HTTP status 500 whose body carries
    a candle list is not turned into an empty series. *)
Lemma non_2xx_response_keeps_candles :
  w_fetch (Runs.world_with (FetchResponse 500 (BodyJson Runs.body_one_candle)))
    Runs.solana_pool = FetchResponse 500 (BodyJson Runs.body_one_candle) /\
  fst (getOHLCV "solana" "pool" "hour" 1 1000
         (Runs.world_with (FetchResponse 500 (BodyJson Runs.body_one_candle))))
  <> inr (JArray []).
Proof. split; [reflexivity | vm_compute; discriminate]. Qed.


(** C7 as stated fails: after a successful fetch the client returns the
    provider's arrays, not objects with named fields. *)
Lemma client_returns_positional_arrays :
  exists elems,
    fst (getOHLCV "solana" "pool" "hour" 1 1000
           (Runs.world_with (FetchResponse 200 (BodyJson Runs.body_one_candle))))
    = inr (JArray elems) /\
    elems <> [] /\ ~ Forall canonical_candle elems.
Proof.
  eexists. split; [vm_compute; reflexivity|]. split; [discriminate|].
  intro H. inversion H as [|x l Hx _]; subst.
  destruct Hx as (fields & Heq & _). discriminate.
Qed.

(** C8 as stated fails: a trade entered with a sell time but no sell price
    is open, yet its window ends at the sell time, not at [Date.now()]. *)
Lemma open_trade_window_ends_at_sell_time :
  status (handleSubmit_trade Runs.parseFloat Runs.form_sell_time_only) = "open"%string /\
  sell_time Runs.getTime (handleSubmit_trade Runs.parseFloat Runs.form_sell_time_only)
    (JFin 400000) = JFin 300000 /\
  JFin 300000 <> JFin 400000.
Proof.
  split; [reflexivity|]. split; [reflexivity|].
  intro H. injection H as H. discriminate.
Qed.

(** C3 fails on a trade sold at ["0"]: the form records the sell price [0]
    and marks the trade ["closed"], and the dashboard computes its P&L
    ([-100]) from that sell price, but the analyzer's truthiness check on
    [sellPrice] gives no [pnlPercent]. *)
Lemma recorded_zero_sell_price_no_pnl :
  handleSubmit_trade Runs.parseFloat Runs.form_zero_sell = Runs.zero_sell_trade /\
  status Runs.zero_sell_trade = "closed"%string /\
  sellPrice Runs.zero_sell_trade = Some (JFin 0) /\
  (exists q, avgPnl (StatsDashboard [mkEntry 1 Runs.zero_sell_trade (JFin 1) None]) = JFin q /\
             q == -100) /\
  exists s, analyze_series Runs.getTime Runs.zero_sell_trade (JFin 0) Runs.series3
            = Some s /\ pnlPercent s = None.
Proof.
  split; [reflexivity|]. split; [reflexivity|]. split; [reflexivity|]. split.
  - eexists. split; [vm_compute; reflexivity | reflexivity].
  - eexists. split; [vm_compute; reflexivity | reflexivity].
Qed.

(** * Witnesses on concrete inputs *)

(** The spec's example: lows [5, 3, 8] and highs [6, 9, 10]. *)
Example series3_summary :
  analyze_series Runs.getTime Runs.closed_trade (JFin 0) Runs.series3 =
  Some Runs.summary3.
Proof. vm_compute. reflexivity. Qed.

Lemma extremum_scan_first_occurrence_witness :
  Forall well_formed Runs.series3 /\
  analyze_series Runs.getTime Runs.closed_trade (JFin 0) Runs.series3 =
    Some Runs.summary3 /\
  (exists i c lo,
     nth_error (relevant_candles Runs.getTime Runs.closed_trade (JFin 0) Runs.series3) i
       = Some c /\
     c_low c = JFin lo /\ minPrice Runs.summary3 = JFin lo /\
     minTimestamp Runs.summary3 = Some (js_mul (c_ts c) n1000) /\
     (forall c' lo', In c' (relevant_candles Runs.getTime Runs.closed_trade (JFin 0) Runs.series3) ->
                     c_low c' = JFin lo' -> lo <= lo') /\
     (forall j c' lo', (j < i)%nat ->
        nth_error (relevant_candles Runs.getTime Runs.closed_trade (JFin 0) Runs.series3) j
          = Some c' ->
        c_low c' = JFin lo' -> lo < lo')) /\
  (exists i c hi,
     nth_error (relevant_candles Runs.getTime Runs.closed_trade (JFin 0) Runs.series3) i
       = Some c /\
     c_high c = JFin hi /\ maxPrice Runs.summary3 = JFin hi /\
     maxTimestamp Runs.summary3 = Some (js_mul (c_ts c) n1000) /\
     (forall c' hi', In c' (relevant_candles Runs.getTime Runs.closed_trade (JFin 0) Runs.series3) ->
                     c_high c' = JFin hi' -> hi' <= hi) /\
     (forall j c' hi', (j < i)%nat ->
        nth_error (relevant_candles Runs.getTime Runs.closed_trade (JFin 0) Runs.series3) j
          = Some c' ->
        c_high c' = JFin hi' -> hi' < hi)).
Proof.
  assert (Hwf : Forall well_formed Runs.series3) by solve_well_formed.
  assert (Hs : analyze_series Runs.getTime Runs.closed_trade (JFin 0) Runs.series3 =
               Some Runs.summary3) by (vm_compute; reflexivity).
  split; [exact Hwf|]. split; [exact Hs|].
  exact (extremum_scan_first_occurrence Runs.getTime Runs.closed_trade (JFin 0)
           Runs.series3 Runs.summary3 Hwf Hs).
Defined.

Lemma empty_window_null_analysis_witness :
  analyzeTradePerformance Runs.getTime Runs.late_trade
    (Runs.world_with (FetchResponse 200 (BodyJson Runs.body_one_candle))) =
  (inr (Runs.late_trade, None),
   Runs.world_with (FetchResponse 200 (BodyJson Runs.body_one_candle))).
Proof.
  apply (empty_window_null_analysis Runs.getTime Runs.late_trade
           (Runs.world_with (FetchResponse 200 (BodyJson Runs.body_one_candle)))
           (Runs.world_with (FetchResponse 200 (BodyJson Runs.body_one_candle)))
           (JArray [JArray [JNumber 100; JNumber 2; JNumber 3;
                            JNumber 1; JNumber 2; JNumber 50]])
           [[100; 2; 3; 1; 2; 50]]).
  - vm_compute. reflexivity.
  - reflexivity.
  - right. intros c [<-|[]]. vm_compute. reflexivity.
Defined.

Lemma pnl_and_captured_gating_witness :
  analyze_series Runs.getTime Runs.closed_trade (JFin 0) Runs.series3 =
    Some Runs.summary3 /\
  capturedPercent Runs.summary3 =
    Some (js_mul (js_div (JFin (100 # 2)) (maxGainPercent Runs.summary3)) n100).
Proof.
  assert (Hs : analyze_series Runs.getTime Runs.closed_trade (JFin 0) Runs.series3 =
               Some Runs.summary3) by (vm_compute; reflexivity).
  split; [exact Hs|].
  destruct (pnl_and_captured_gating Runs.getTime Runs.closed_trade (JFin 0)
              Runs.series3 Runs.summary3 Hs) as (_ & _ & _ & Hcap & _).
  apply Hcap; reflexivity.
Defined.

Lemma window_filter_closed_interval_witness :
  In [100; 5; 6; 5; 5]
     (relevant_candles Runs.getTime Runs.closed_trade (JFin 0) Runs.series3).
Proof.
  destruct (window_filter_closed_interval Runs.getTime Runs.closed_trade (JFin 0)
              Runs.series3 [100; 5; 6; 5; 5] 100000 300000 100
              eq_refl eq_refl eq_refl (or_introl eq_refl)) as [_ Hb].
  apply Hb.
  - left. reflexivity.
  - unfold Qle. simpl. lia.
Defined.


Lemma ohlcv_client_never_throws_witness :
  fst (getOHLCV "solana" "pool" "hour" 1 1000 (Runs.world_with FetchRejected)) =
  inr (JArray []) /\
  fst (getOHLCV "solana" "pool" "hour" 1 1000
         (Runs.world_with (FetchResponse 500 (BodyJson Runs.body_one_candle)))) =
  inr (JArray [JArray [JNumber 100; JNumber 2; JNumber 3;
                       JNumber 1; JNumber 2; JNumber 50]]).
Proof.
  split.
  - destruct (ohlcv_client_never_throws "solana" "pool" "hour" 1 1000
                (Runs.world_with FetchRejected)) as (_ & Hrej & _).
    apply Hrej. reflexivity.
  - destruct (ohlcv_client_never_throws "solana" "pool" "hour" 1 1000
                (Runs.world_with (FetchResponse 500 (BodyJson Runs.body_one_candle))))
      as (_ & _ & _ & _ & Hlist).
    apply (Hlist 500%Z Runs.body_one_candle); reflexivity.
Defined.

Lemma ohlcv_client_returns_raw_list_witness :
  fst (getOHLCV "solana" "pool" "hour" 1 1000
         (Runs.world_with (FetchResponse 200 (BodyJson Runs.body_one_candle)))) =
  inr (JArray [JArray [JNumber 100; JNumber 2; JNumber 3;
                       JNumber 1; JNumber 2; JNumber 50]]).
Proof.
  apply (ohlcv_client_returns_raw_list _ _ _ _ _ _ 200 Runs.body_one_candle);
    reflexivity.
Defined.

Lemma window_bounds_follow_sell_timestamp_witness :
  sell_time Runs.getTime
    (handleSubmit_trade Runs.parseFloat Runs.form_sell_time_only) (JFin 400000) =
  JFin 300000.
Proof.
  destruct (window_bounds_follow_sell_timestamp Runs.getTime Runs.parseFloat
              Runs.closed_trade Runs.form_sell_time_only (JFin 400000) Runs.series3)
    as (_ & _ & _ & _ & H).
  rewrite H. reflexivity.
Defined.

Lemma zero_sell_price_no_pnl_witness :
  analyze_series Runs.getTime Runs.zero_sell_trade (JFin 0) Runs.series3 =
    Some Runs.summary3_zero_sell /\
  pnlPercent Runs.summary3_zero_sell = None /\
  capturedPercent Runs.summary3_zero_sell = None.
Proof.
  assert (Hs : analyze_series Runs.getTime Runs.zero_sell_trade (JFin 0) Runs.series3 =
               Some Runs.summary3_zero_sell) by (vm_compute; reflexivity).
  split; [exact Hs|].
  exact (zero_sell_price_no_pnl Runs.getTime Runs.zero_sell_trade (JFin 0)
           Runs.series3 Runs.summary3_zero_sell 0 (Qeq_refl 0) eq_refl Hs).
Defined.

Lemma returned_summary_well_formed_witness :
  Forall well_formed Runs.series3 /\
  analyze_series Runs.getTime Runs.closed_trade (JFin 0) Runs.series3 =
    Some Runs.summary3 /\
  (1 <= candleCount Runs.summary3)%nat /\
  candleCount Runs.summary3 =
    List.length (relevant_candles Runs.getTime Runs.closed_trade (JFin 0) Runs.series3) /\
  (exists c ts lo,
     In c (relevant_candles Runs.getTime Runs.closed_trade (JFin 0) Runs.series3) /\
     c_ts c = JFin ts /\ c_low c = JFin lo /\
     minTimestamp Runs.summary3 = Some (JFin (ts * 1000)) /\
     minPrice Runs.summary3 = JFin lo) /\
  (exists c ts hi,
     In c (relevant_candles Runs.getTime Runs.closed_trade (JFin 0) Runs.series3) /\
     c_ts c = JFin ts /\ c_high c = JFin hi /\
     maxTimestamp Runs.summary3 = Some (JFin (ts * 1000)) /\
     maxPrice Runs.summary3 = JFin hi).
Proof.
  assert (Hwf : Forall well_formed Runs.series3) by solve_well_formed.
  assert (Hs : analyze_series Runs.getTime Runs.closed_trade (JFin 0) Runs.series3 =
               Some Runs.summary3) by (vm_compute; reflexivity).
  split; [exact Hwf|]. split; [exact Hs|].
  exact (returned_summary_well_formed Runs.getTime Runs.closed_trade (JFin 0)
           Runs.series3 Runs.summary3 Hwf Hs).
Defined.

(** * Further properties of the journal, the dashboard and the card *)

Lemma filter_all_true {A} (f : A -> bool) (l : list A) :
  (forall x, In x l -> f x = true) -> filter f l = l.
Proof.
  induction l as [|x l IH]; intro H; simpl; [reflexivity|].
  rewrite H by (left; reflexivity). f_equal. apply IH. intros y Hy. apply H. right. exact Hy.
Qed.

Lemma filter_length_bound {A} (f : A -> bool) (l : list A) :
  (List.length (filter f l) <= List.length l)%nat.
Proof. induction l as [|x l IH]; simpl; [lia|]. destruct (f x); simpl; lia. Qed.

(** The journal after an update, position by position. *)
Lemma update_nth {T} (id_of : T -> Z) (u : T) (prev : list T) (i : nat) (x : T) :
  nth_error prev i = Some x ->
  nth_error (handleUpdateTrade id_of u prev) i =
    Some (if Z.eqb (id_of x) (id_of u) then u else x).
Proof.
  intro H. unfold handleUpdateTrade. rewrite nth_error_map, H. reflexivity.
Qed.

Lemma single_id {T} (id_of : T -> Z) (k : Z) (l : list T) :
  NoDup (map id_of l) -> In k (map id_of l) ->
  exists x, id_of x = k /\ filter (fun t => Z.eqb (id_of t) k) l = [x].
Proof.
  induction l as [|a l IH]; simpl; [intros _ []|].
  intros Hnd Hin. inversion Hnd as [|? ? Hnotin Hnd']; subst.
  destruct (Z.eqb (id_of a) k) eqn:E.
  - apply Z.eqb_eq in E. exists a. split; [exact E|]. f_equal.
    apply filter_all_false. intros y Hy. apply Z.eqb_neq. intro Hy'.
    apply Hnotin. rewrite E, <- Hy'. apply in_map. exact Hy.
  - apply Z.eqb_neq in E. destruct Hin as [Hin|Hin]; [congruence|]. auto.
Qed.

Lemma filter_update {T} (id_of : T -> Z) (u : T) (l : list T) :
  filter (fun t => Z.eqb (id_of t) (id_of u)) (handleUpdateTrade id_of u l) =
  map (fun _ => u) (filter (fun t => Z.eqb (id_of t) (id_of u)) l).
Proof.
  induction l as [|a l IH]; simpl; [reflexivity|].
  destruct (Z.eqb (id_of a) (id_of u)) eqn:E; simpl.
  - rewrite Z.eqb_refl. f_equal. exact IH.
  - rewrite E. exact IH.
Qed.

(** X1: a confirmed delete works trade by trade, in order: on a journal
    [l1 ++ l2] it is the delete on [l1] followed by the delete on [l2], and a
    single trade is dropped exactly when its [id] is the given one. So the
    result keeps, in their order and with their repetitions, exactly the
    trades with another [id]. Deleting the same [id] twice is deleting it
    once, and a delete that is not confirmed changes nothing. *)
Theorem delete_removes_exactly_id {T} (id_of : T -> Z) (tradeId : Z) (prev : list T) :
  (forall l1 l2, handleDeleteTrade id_of true tradeId (l1 ++ l2) =
                 handleDeleteTrade id_of true tradeId l1 ++
                 handleDeleteTrade id_of true tradeId l2) /\
  (forall t, handleDeleteTrade id_of true tradeId [t] =
             if Z.eqb (id_of t) tradeId then [] else [t]) /\
  (forall t, In t (handleDeleteTrade id_of true tradeId prev) <->
             In t prev /\ id_of t <> tradeId) /\
  handleDeleteTrade id_of true tradeId (handleDeleteTrade id_of true tradeId prev) =
    handleDeleteTrade id_of true tradeId prev /\
  handleDeleteTrade id_of false tradeId prev = prev.
Proof.
  unfold handleDeleteTrade. split; [|split; [|split; [|split; [|reflexivity]]]].
  - intros l1 l2. apply filter_app.
  - intro t. simpl. destruct (Z.eqb (id_of t) tradeId); reflexivity.
  - intro t. rewrite filter_In, negb_true_iff, Z.eqb_neq. tauto.
  - apply filter_all_true. intros x Hx. apply filter_In in Hx. tauto.
Qed.

(** X2: adding a trade whose [id] is new and then deleting that [id] gives
    back the journal. *)
Theorem add_then_delete_restores {T} (id_of : T -> Z) (t : T) (prev : list T) :
  ~ In (id_of t) (map id_of prev) ->
  handleDeleteTrade id_of true (id_of t) (handleAddTrade t prev) = prev.
Proof.
  intro Hfresh. unfold handleDeleteTrade, handleAddTrade. simpl.
  rewrite Z.eqb_refl. simpl. apply filter_all_true.
  intros x Hx. apply negb_true_iff, Z.eqb_neq. intro He.
  apply Hfresh. rewrite <- He. apply in_map. exact Hx.
Qed.

(** X3: an update keeps the journal's length and every entry's position,
    replaces every entry carrying the updated [id] and nothing else; when
    ids are distinct and the [id] is present, the updated entry then occurs
    exactly once under its [id] and the list of ids is unchanged. *)
Theorem update_replaces_by_id {T} (id_of : T -> Z) (u : T) (prev : list T) :
  List.length (handleUpdateTrade id_of u prev) = List.length prev /\
  (forall i x, nth_error prev i = Some x ->
     nth_error (handleUpdateTrade id_of u prev) i =
       Some (if Z.eqb (id_of x) (id_of u) then u else x)) /\
  (NoDup (map id_of prev) -> In (id_of u) (map id_of prev) ->
   map id_of (handleUpdateTrade id_of u prev) = map id_of prev /\
   filter (fun t => Z.eqb (id_of t) (id_of u)) (handleUpdateTrade id_of u prev) = [u]).
Proof.
  assert (Hids : map id_of (handleUpdateTrade id_of u prev) = map id_of prev).
  { unfold handleUpdateTrade. rewrite map_map. apply map_ext.
    intro x. destruct (Z.eqb (id_of x) (id_of u)) eqn:E; [|reflexivity].
    apply Z.eqb_eq in E. symmetry. exact E. }
  split; [unfold handleUpdateTrade; apply length_map|].
  split; [intros i x; apply update_nth|].
  intros Hnd Hin. split; [exact Hids|].
  destruct (single_id id_of (id_of u) prev Hnd Hin) as (x & Hx & Hfx).
  rewrite filter_update, Hfx. reflexivity.
Qed.

(** X4: when the price fetch fails, analysing an entry still completes, and
    every journal entry with its [id] is replaced by the entry with a [null]
    analysis: an earlier analysis is erased. Other entries stay in place. *)
Theorem failed_reanalysis_clears_analysis (gt : string -> jsnum) (e : entry)
    (journal : list entry) (w : world) :
  w_fetch w (solana_request (e_trade e)) = FetchRejected ->
  exists journal',
    fst (handleAnalyze gt e journal w) = inr journal' /\
    List.length journal' = List.length journal /\
    (forall i x, nth_error journal i = Some x ->
       nth_error journal' i =
         Some (if Z.eqb (e_id x) (e_id e)
               then mkEntry (e_id e) (e_trade e) (e_buyAmount e) None else x)).
Proof.
  intro Hf. unfold solana_request in Hf.
  exists (handleUpdateTrade e_id (mkEntry (e_id e) (e_trade e) (e_buyAmount e) None) journal).
  split; [|split].
  - unfold handleAnalyze, analyzeTradePerformance, getOHLCV, try_catch, bind,
      fetch, console_error, ret, throw, date_now.
    rewrite Hf. reflexivity.
  - unfold handleUpdateTrade. apply length_map.
  - intros i x Hx. rewrite (update_nth e_id _ journal i x Hx). reflexivity.
Qed.

Lemma open_closed_count (trades : list entry) :
  Forall (fun e => status (e_trade e) = "open"%string \/
                   status (e_trade e) = "closed"%string) trades ->
  (List.length (filter (is_status "open") trades) +
   List.length (filter (is_status "closed") trades) = List.length trades)%nat.
Proof.
  induction 1 as [|e l [H|H] _ IH]; simpl; [reflexivity| |].
  - assert (Ho : is_status "open" e = true) by (unfold is_status; rewrite H; reflexivity).
    assert (Hc : is_status "closed" e = false) by (unfold is_status; rewrite H; reflexivity).
    rewrite Ho, Hc. simpl. lia.
  - assert (Ho : is_status "open" e = false) by (unfold is_status; rewrite H; reflexivity).
    assert (Hc : is_status "closed" e = true) by (unfold is_status; rewrite H; reflexivity).
    rewrite Ho, Hc. simpl. lia.
Qed.

(** X5: a trade built by [handleSubmit] is ["open"] or ["closed"], and for a
    journal of such trades the dashboard's open and closed counts add up to
    its total. *)
Theorem open_closed_partition (trades : list entry) :
  (forall pf now_ms amt f,
     status (e_trade (handleSubmit_entry pf now_ms amt f)) = "open"%string \/
     status (e_trade (handleSubmit_entry pf now_ms amt f)) = "closed"%string) /\
  (Forall (fun e => status (e_trade e) = "open"%string \/
                    status (e_trade e) = "closed"%string) trades ->
   (openCount (StatsDashboard trades) + closedCount (StatsDashboard trades) =
    totalTrades (StatsDashboard trades))%nat).
Proof.
  split.
  - intros pf now_ms amt f. simpl. destruct (str_truthy (f_sellPrice f)); auto.
  - intro H. apply open_closed_count. exact H.
Qed.

(** X6: the win rate is a finite percentage between [0] and [100], and [0]
    when no trade is closed. *)
Theorem win_rate_bounds (trades : list entry) :
  (exists q, winRate (StatsDashboard trades) = JFin q /\ 0 <= q <= 100) /\
  (closedCount (StatsDashboard trades) = 0%nat ->
   winRate (StatsDashboard trades) = JFin 0).
Proof.
  unfold StatsDashboard. cbn [winRate closedCount].
  set (closed := filter (is_status "closed") trades).
  set (wins := filter _ closed).
  assert (Hw : (List.length wins <= List.length closed)%nat) by apply filter_length_bound.
  split.
  - destruct (Nat.ltb 0 (List.length closed)) eqn:Hn.
    + apply Nat.ltb_lt in Hn.
      set (w := inject_Z (Z.of_nat (List.length wins))).
      set (n := inject_Z (Z.of_nat (List.length closed))).
      assert (Hn0 : 0 < n).
      { unfold n. change 0 with (inject_Z 0). rewrite <- Zlt_Qlt. lia. }
      assert (Hw0 : 0 <= w).
      { unfold w. change 0 with (inject_Z 0). rewrite <- Zle_Qle. lia. }
      assert (Hwn : w <= n) by (unfold w, n; rewrite <- Zle_Qle; lia).
      assert (Hnz : Qeq_bool n 0 = false).
      { apply not_true_iff_false. intro H. apply Qeq_bool_iff in H.
        rewrite H in Hn0. apply (Qlt_irrefl 0). exact Hn0. }
      unfold js_div, js_mul, n100. fold w n. rewrite Hnz.
      exists (w / n * 100). split; [reflexivity|]. split.
      * apply Qmult_le_0_compat; [|discriminate].
        apply Qle_shift_div_l; [exact Hn0|]. rewrite Qmult_0_l. exact Hw0.
      * apply Qle_trans with (1 * 100); [|discriminate].
        apply Qmult_le_compat_r; [|discriminate].
        apply Qle_shift_div_r; [exact Hn0|]. rewrite Qmult_1_l. exact Hwn.
    + exists 0. split; [reflexivity | split; discriminate].
  - intro H0. rewrite H0. reflexivity.
Qed.



(** X8: the P&L shown on a trade card is the analysis's [pnlPercent]
    whenever the analysis has one; otherwise the card falls back to the
    unrealized P&L at the current price, or to [null]. *)
Theorem card_pnl_matches_analysis (gt : string -> jsnum) (t : trade) (now : jsnum)
    (data : list raw_candle) (s : summary) (currentPrice : option jsnum) :
  analyze_series gt t now data = Some s ->
  (pnlPercent s <> None -> card_pnl t currentPrice = pnlPercent s) /\
  (pnlPercent s = None ->
   card_pnl t currentPrice =
     match currentPrice with
     | Some c => if js_truthy c then Some (percent_of c (buyPrice t)) else None
     | None => None
     end).
Proof.
  intro Hs. apply analyze_series_some in Hs as [_ ->].
  unfold summarize, card_pnl. simpl.
  destruct (sellPrice t) as [p|]; [destruct (js_truthy p)|]; split;
    solve [reflexivity | intro H; exfalso; apply H; reflexivity | discriminate].
Qed.

(** ** Percentages of finite prices *)





(** * Properties of the token search *)

Lemma filter_solana_ok (l : list json) (w : search_world) :
  ~ In JNull l ->
  filter_solana l w = (inr (filter (fun p => is_solana (prop p "chainId")) l), w).
Proof.
  induction l as [|a l IH]; intros Hn; [reflexivity|].
  assert (Hl : ~ In JNull l) by (intro H; apply Hn; right; exact H).
  destruct a; [exfalso; apply Hn; left; reflexivity| | | | |];
    simpl; cbv [sbind sret]; rewrite (IH Hl); reflexivity.
Qed.

Lemma filter_solana_null (l : list json) (w : search_world) :
  In JNull l -> filter_solana l w = (inl TypeError, w).
Proof.
  induction l as [|a l IH]; intros Hin; [contradiction|].
  destruct Hin as [->|Hin]; [reflexivity|].
  destruct a; simpl; try reflexivity; cbv [sbind sret]; rewrite (IH Hin); reflexivity.
Qed.

Lemma filter_solana_all (l : list json) :
  Forall (fun p => prop p "chainId" = Val (JString "solana"))
    (filter (fun p => is_solana (prop p "chainId")) l).
Proof.
  induction l as [|p l IH]; simpl; [constructor|].
  destruct (prop p "chainId") as [|[| | |s| |]] eqn:Hp; simpl; try exact IH.
  destruct (String.eqb s "solana") eqn:Hs; [|exact IH].
  apply String.eqb_eq in Hs; subst s. constructor; [exact Hp | exact IH].
Qed.

Lemma Forall_firstn {A} (P : A -> Prop) (n : nat) (l : list A) :
  Forall P l -> Forall P (firstn n l).
Proof.
  intros H. rewrite <- (firstn_skipn n l) in H.
  apply Forall_app in H. exact (proj1 H).
Qed.

(** X11: [searchToken] never rejects. It sends exactly one request for the
    query and leaves [results] and [loading] alone. When the response is a
    non-null JSON value (whatever its HTTP status), it returns
    [data.pairs || []]. When the request fails or the body is not JSON, it
    returns [[]] and logs one error. *)
Theorem searchToken_never_throws (query : string) (w : search_world) :
  exists v,
    fst (searchToken query w) = inr v /\
    sw_requests (snd (searchToken query w)) = sw_requests w ++ [query] /\
    sw_results (snd (searchToken query w)) = sw_results w /\
    sw_loading (snd (searchToken query w)) = sw_loading w /\
    (forall st j, sw_fetch w query = FetchResponse st (BodyJson j) -> j <> JNull ->
       v = or_empty (prop j "pairs") /\ sw_log (snd (searchToken query w)) = sw_log w) /\
    (sw_fetch w query = FetchRejected \/
     (exists st, sw_fetch w query = FetchResponse st BodyMalformed) ->
       v = JArray [] /\
       sw_log (snd (searchToken query w)) = sw_log w ++ ["DexScreener search error:"%string]).
Proof.
  unfold searchToken, stry, sbind, search_fetch.
  destruct (sw_fetch w query) as [|code [|j]] eqn:Hf;
    [exists (JArray []) | exists (JArray []) |
     destruct j as [| | | | |fields]; [exists (JArray []) |
       exists (JArray []).. | exists (or_empty (prop (JObject fields) "pairs"))]];
    simpl; repeat split; try reflexivity; try discriminate;
    try (destruct H as [H|[s0 H]]; discriminate);
    injection H as <- <-;
    first [exfalso; apply H0; reflexivity | reflexivity].
Qed.

(** X13: a search whose response carries an array of pairs without [null]
    ends with [loading] off and [results] the first ten pairs whose
    [chainId] is ["solana"], in response order; one request is sent. *)
Theorem search_keeps_first_ten_solana (query : string) (w : search_world)
    (st : Z) (fields : list (string * json)) (l : list json) :
  blank query = false ->
  sw_fetch w query = FetchResponse st (BodyJson (JObject fields)) ->
  obj_get fields "pairs" = Val (JArray l) ->
  ~ In JNull l ->
  fst (handleSearch query w) = inr tt /\
  sw_results (snd (handleSearch query w)) =
    firstn 10 (filter (fun p => is_solana (prop p "chainId")) l) /\
  sw_loading (snd (handleSearch query w)) = false /\
  sw_requests (snd (handleSearch query w)) = sw_requests w ++ [query] /\
  (List.length (sw_results (snd (handleSearch query w))) <= 10)%nat /\
  Forall (fun p => prop p "chainId" = Val (JString "solana"))
    (sw_results (snd (handleSearch query w))).
Proof.
  intros Hb Hf Hp Hn.
  unfold handleSearch. rewrite Hb.
  unfold sbind at 1, set_loading at 1.
  unfold sbind at 1, searchToken, stry, sbind, search_fetch. simpl.
  rewrite Hf. simpl. rewrite Hp. simpl.
  rewrite (filter_solana_ok l _ Hn). simpl.
  repeat split; try reflexivity.
  - exact (firstn_le_length 10 (filter (fun p => is_solana (prop p "chainId")) l)).
  - exact (Forall_firstn _ 10 _ (filter_solana_all l)).
Qed.

(** X14: a search whose request fails, or whose body is not JSON, clears
    the previous [results] and turns [loading] off. *)
Theorem failed_search_clears_results (query : string) (w : search_world) :
  blank query = false ->
  (sw_fetch w query = FetchRejected \/
   exists st, sw_fetch w query = FetchResponse st BodyMalformed) ->
  fst (handleSearch query w) = inr tt /\
  sw_results (snd (handleSearch query w)) = [] /\
  sw_loading (snd (handleSearch query w)) = false /\
  sw_log (snd (handleSearch query w)) = sw_log w ++ ["DexScreener search error:"%string].
Proof.
  intros Hb Hf.
  unfold handleSearch. rewrite Hb.
  unfold sbind at 1, set_loading at 1.
  unfold sbind at 1, searchToken, stry, sbind, search_fetch. simpl.
  destruct Hf as [Hf|[st Hf]]; rewrite Hf; simpl; repeat split.
Qed.

(** X15: when the pairs of the response are truthy but not an array of
    non-null values (a [null] element, or an object, string, number or
    [true]), the search rejects with a [TypeError]: [loading] stays on and
    the previous [results] stay. *)
Theorem bad_pairs_leave_loading (query : string) (w : search_world)
    (st : Z) (fields : list (string * json)) (v : json) :
  blank query = false ->
  sw_fetch w query = FetchResponse st (BodyJson (JObject fields)) ->
  obj_get fields "pairs" = Val v ->
  json_truthy (Val v) = true ->
  (forall l, v = JArray l -> In JNull l) ->
  fst (handleSearch query w) = inl TypeError /\
  sw_loading (snd (handleSearch query w)) = true /\
  sw_results (snd (handleSearch query w)) = sw_results w.
Proof.
  intros Hb Hf Hp Ht Hl.
  unfold handleSearch. rewrite Hb.
  unfold sbind at 1, set_loading at 1.
  unfold sbind at 1, searchToken, stry, sbind, search_fetch. simpl.
  rewrite Hf. simpl. rewrite Hp.
  destruct v as [|b|q|s|l|fields']; simpl in Ht; try discriminate;
    [subst b | | | | ]; simpl; try rewrite Ht; try (repeat split; reflexivity).
  cbv [sbind]. rewrite (filter_solana_null l _ (Hl l eq_refl)). repeat split.
Qed.

(** * NaN in the dashboard average *)

Lemma fold_add_from_nan {A} (f : A -> jsnum) (l : list A) :
  fold_left (fun s e => js_add s (f e)) l JNaN = JNaN.
Proof. induction l as [|a l IH]; [reflexivity|]. simpl. exact IH. Qed.

Lemma fold_add_hits_nan {A} (f : A -> jsnum) (l : list A) (acc : jsnum) (e : A) :
  In e l -> f e = JNaN -> fold_left (fun s e => js_add s (f e)) l acc = JNaN.
Proof.
  revert acc. induction l as [|a l IH]; intros acc Hin Hf; [contradiction|].
  simpl. destruct Hin as [->|Hin].
  - rewrite Hf. replace (js_add acc JNaN) with JNaN by (destruct acc; reflexivity).
    apply fold_add_from_nan.
  - apply IH; assumption.
Qed.

(** X16: one closed trade whose P&L term is NaN turns the dashboard's
    average P&L into NaN, whatever the other trades are. This happens when
    its sell price is NaN (an unparsable sell price), when its buy price is
    NaN, or when both its buy price and its sell price (a missing one counts
    as [0]) are zero. *)
Theorem avg_pnl_nan_poisoned (trades : list entry) (e : entry) :
  In e trades ->
  is_status "closed" e = true ->
  sellPrice (e_trade e) = Some JNaN \/
  buyPrice (e_trade e) = JNaN \/
  (exists b s, buyPrice (e_trade e) = JFin b /\ b == 0 /\
               null_to_num (sellPrice (e_trade e)) = JFin s /\ s == 0) ->
  avgPnl (StatsDashboard trades) = JNaN.
Proof.
  intros Hin Hc Hcase.
  assert (Hp : percent_of (null_to_num (sellPrice (e_trade e))) (buyPrice (e_trade e)) = JNaN).
  { destruct Hcase as [Hs|[Hb|(b & s & Hb & Hb0 & Hs & Hs0)]].
    - rewrite Hs. destruct (buyPrice (e_trade e)); reflexivity.
    - rewrite Hb. destruct (null_to_num (sellPrice (e_trade e))); reflexivity.
    - rewrite Hb, Hs. unfold percent_of, js_sub, js_add, js_neg, js_div.
      apply Qeq_bool_iff in Hb0. rewrite Hb0.
      assert (Hq : qsign (s + - b) = Eq).
      { unfold qsign. apply Qeq_bool_iff in Hb0. apply Qeq_alt.
        rewrite Hs0, Hb0. reflexivity. }
      rewrite Hq. reflexivity. }
  assert (Hcl : In e (filter (is_status "closed") trades))
    by (apply filter_In; split; assumption).
  unfold StatsDashboard. cbn [avgPnl].
  destruct (filter (is_status "closed") trades) as [|c cs] eqn:Hf; [contradiction|].
  cbn [List.length Nat.ltb Nat.leb].
  rewrite (fold_add_hits_nan
             (fun e => percent_of (null_to_num (sellPrice (e_trade e))) (buyPrice (e_trade e)))
             (c :: cs) (JFin 0) e Hcl Hp).
  reflexivity.
Qed.

(** * Witnesses of the further properties *)


Lemma add_then_delete_restores_witness :
  handleDeleteTrade (fun z : Z => z) true 3%Z (handleAddTrade 3%Z [1%Z; 2%Z]) = [1%Z; 2%Z].
Proof.
  apply (add_then_delete_restores (fun z : Z => z) 3%Z [1%Z; 2%Z]).
  simpl. intros [H|[H|[]]]; discriminate.
Defined.

Lemma failed_reanalysis_clears_analysis_witness :
  exists journal',
    fst (handleAnalyze Runs.getTime ExtraRuns.analyzed_entry [ExtraRuns.analyzed_entry]
           (Runs.world_with FetchRejected)) = inr journal' /\
    nth_error journal' 0 = Some (mkEntry 1 Runs.closed_trade (JFin 5) None).
Proof.
  destruct (failed_reanalysis_clears_analysis Runs.getTime ExtraRuns.analyzed_entry
              [ExtraRuns.analyzed_entry] (Runs.world_with FetchRejected) eq_refl)
    as (j & Hj & _ & Hn).
  exists j. split; [exact Hj|].
  exact (Hn 0%nat ExtraRuns.analyzed_entry eq_refl).
Defined.

Lemma card_pnl_matches_analysis_witness :
  card_pnl Runs.closed_trade None = pnlPercent Runs.summary3.
Proof.
  apply (proj1 (card_pnl_matches_analysis Runs.getTime Runs.closed_trade (JFin 0)
                  Runs.series3 Runs.summary3 None ltac:(vm_compute; reflexivity))).
  discriminate.
Defined.


Lemma search_keeps_first_ten_solana_witness :
  sw_results (snd (handleSearch "pepe"
                     (ExtraRuns.search_world_with
                        (FetchResponse 200 (BodyJson ExtraRuns.body_two_pairs))))) =
    [ExtraRuns.pair_on "solana"] /\
  sw_loading (snd (handleSearch "pepe"
                     (ExtraRuns.search_world_with
                        (FetchResponse 200 (BodyJson ExtraRuns.body_two_pairs))))) = false.
Proof.
  destruct (search_keeps_first_ten_solana "pepe"
              (ExtraRuns.search_world_with (FetchResponse 200 (BodyJson ExtraRuns.body_two_pairs)))
              200 [("pairs"%string, JArray [ExtraRuns.pair_on "solana"; ExtraRuns.pair_on "ethereum"])]
              [ExtraRuns.pair_on "solana"; ExtraRuns.pair_on "ethereum"])
    as (_ & Hr & Hl & _).
  - reflexivity.
  - reflexivity.
  - reflexivity.
  - simpl. intros [H|[H|[]]]; discriminate.
  - split; [rewrite Hr; reflexivity | exact Hl].
Defined.

Lemma failed_search_clears_results_witness :
  sw_results (snd (handleSearch "pepe" (ExtraRuns.search_world_with FetchRejected))) = [] /\
  sw_loading (snd (handleSearch "pepe" (ExtraRuns.search_world_with FetchRejected))) = false.
Proof.
  destruct (failed_search_clears_results "pepe" (ExtraRuns.search_world_with FetchRejected)
              eq_refl (or_introl eq_refl)) as (_ & Hr & Hl & _).
  split; assumption.
Defined.

Lemma bad_pairs_leave_loading_witness :
  fst (handleSearch "pepe"
         (ExtraRuns.search_world_with (FetchResponse 200 (BodyJson ExtraRuns.body_null_pair)))) =
    inl TypeError /\
  sw_loading (snd (handleSearch "pepe"
         (ExtraRuns.search_world_with (FetchResponse 200 (BodyJson ExtraRuns.body_null_pair))))) =
    true.
Proof.
  destruct (bad_pairs_leave_loading "pepe"
              (ExtraRuns.search_world_with (FetchResponse 200 (BodyJson ExtraRuns.body_null_pair)))
              200 [("pairs"%string, JArray [ExtraRuns.pair_on "solana"; JNull])]
              (JArray [ExtraRuns.pair_on "solana"; JNull]))
    as (He & Hl & _).
  - reflexivity.
  - reflexivity.
  - reflexivity.
  - reflexivity.
  - intros l Hl. injection Hl as <-. right. left. reflexivity.
  - split; assumption.
Defined.

Lemma avg_pnl_nan_poisoned_witness :
  avgPnl (StatsDashboard [ExtraRuns.analyzed_entry; ExtraRuns.nan_sell_entry]) = JNaN.
Proof.
  apply (avg_pnl_nan_poisoned _ ExtraRuns.nan_sell_entry).
  - right. left. reflexivity.
  - reflexivity.
  - left. reflexivity.
Defined.
